(** * Chatbot IA API: the keyword rules of [app/main.py]

    A shallow embedding of the request handler [chat] and of its helpers
    [process_message], [classify_intent], [should_transfer_to_human],
    [generate_suggestions] and [log_conversation], followed by the properties
    of the rule tables.

    Conventions.
    - A Python [str] is a sequence of Unicode code points: [str := list N].
      Literals are written as UTF-8 text and decoded by [u].
    - A Python [float] is a binary64 value: Rocq's primitive [float], with the
      IEEE comparisons [<?] and [<=?].
    - [str.lower] follows CPython's algorithm; the Unicode character tables it
      reads are the fields of the class [CaseTables]. *)

From Stdlib Require Import NArith List Bool String Ascii PrimFloat.
From stdpp Require Import base list gmap.

#[local] Set Warnings "-inexact-float".

Local Open Scope N_scope.

(** ** Strings *)

Definition codepoint := N.
Abbreviation str := (list N).

Module Utf8.

(** Decoder state: code point under construction and number of
    continuation bytes still expected. *)
Fixpoint decode_from (acc : N) (need : nat) (bs : list N) : str :=
  match bs with
  | [] => []
  | b :: rest =>
      match need with
      | O =>
          if b <? 0x80 then b :: decode_from 0 0 rest
          else if b <? 0xE0 then decode_from (N.land b 0x1F) 1 rest
          else if b <? 0xF0 then decode_from (N.land b 0x0F) 2 rest
          else decode_from (N.land b 0x07) 3 rest
      | S O => N.lor (N.shiftl acc 6) (N.land b 0x3F) :: decode_from 0 0 rest
      | S k => decode_from (N.lor (N.shiftl acc 6) (N.land b 0x3F)) k rest
      end
  end.

Definition bytes_of (s : string) : list N :=
  List.map N_of_ascii (list_ascii_of_string s).

Definition decode (s : string) : str := decode_from 0 0 (bytes_of s).

End Utf8.

(** [u "..."] is the Python string literal with that text. *)
Definition u (s : string) : str := Utf8.decode s.

(** [str_contains s w] is Python's [w in s] on strings. *)
Fixpoint startswith (s w : str) {struct w} : bool :=
  match w, s with
  | [], _ => true
  | _ :: _, [] => false
  | a :: w', b :: s' => (a =? b) && startswith s' w'
  end.

Fixpoint str_contains (s w : str) : bool :=
  startswith s w ||
  match s with
  | [] => false
  | _ :: s' => str_contains s' w
  end.

(** [any(p(x) for x in xs)] *)
Definition any {A} (p : A -> bool) (xs : list A) : bool := existsb p xs.

(** ** [str.lower]

    CPython lowers a string one code point at a time ([do_lower] in
    [unicodeobject.c]): every code point is replaced by its full lower-case
    mapping, except GREEK CAPITAL LETTER SIGMA, whose image depends on the
    neighbouring code points.  The character database is an input of the
    model; only its ASCII rows are fixed here. *)

Definition ascii_lower (c : codepoint) : codepoint :=
  if (65 <=? c) && (c <=? 90) then c + 32 else c.

(** The rows of the character database beyond ASCII: the full lower-case
    mapping and the properties Cased and Case_Ignorable. *)
Class CaseTables := {
  lower_table : codepoint -> str;
  is_cased : codepoint -> bool;
  is_case_ignorable : codepoint -> bool
}.

Section Lower.
Context `{CaseTables}.

Definition to_lower_full (c : codepoint) : str :=
  if c <? 128 then [ascii_lower c] else lower_table c.

(** First code point of [s] that is not case-ignorable. *)
Fixpoint skip_case_ignorable (s : str) : option codepoint :=
  match s with
  | [] => None
  | c :: rest => if is_case_ignorable c then skip_case_ignorable rest else Some c
  end.

(** [before] holds the code points to the left of the sigma, nearest first. *)
Definition handle_capital_sigma (before after : str) : codepoint :=
  let final_sigma :=
    match skip_case_ignorable before with
    | Some c => is_cased c
    | None => false
    end &&
    match skip_case_ignorable after with
    | Some c => negb (is_cased c)
    | None => true
    end in
  if final_sigma then 0x3C2 else 0x3C3.

Definition lower_ucs4 (before : str) (c : codepoint) (after : str) : str :=
  if c =? 0x3A3 then [handle_capital_sigma before after] else to_lower_full c.

Fixpoint do_lower (before s : str) : str :=
  match s with
  | [] => []
  | c :: after => lower_ucs4 before c after ++ do_lower (c :: before) after
  end.

Definition lower (s : str) : str := do_lower [] s.

End Lower.

(** The tables of the blocks Basic Latin and Latin-1 Supplement; code points
    from U+0100 on are mapped to themselves and carry no case property.  On
    text written in these two blocks [lower] then computes what Python
    returns. *)
Module Latin1.

Definition lower_table (c : codepoint) : str :=
  if (0xC0 <=? c) && (c <=? 0xDE) && negb (c =? 0xD7) then [c + 32] else [c].

Definition is_cased (c : codepoint) : bool :=
  ((65 <=? c) && (c <=? 90)) || ((97 <=? c) && (c <=? 122))
  || (c =? 0xAA) || (c =? 0xB5) || (c =? 0xBA)
  || ((0xC0 <=? c) && (c <=? 0xFF) && negb (c =? 0xD7) && negb (c =? 0xF7)).

Definition is_case_ignorable (c : codepoint) : bool :=
  existsb (N.eqb c)
    [0x27; 0x2E; 0x3A; 0x5E; 0x60; 0xA8; 0xAD; 0xAF; 0xB4; 0xB7; 0xB8].

End Latin1.

#[global] Instance latin1_tables : CaseTables := {|
  lower_table := Latin1.lower_table;
  is_cased := Latin1.is_cased;
  is_case_ignorable := Latin1.is_case_ignorable
|}.

(** ** Data model *)

(** The dict [{"type": ..., "confidence": ...}] built by [classify_intent]. *)
Module Intent.
Record t := mk { type : str; confidence : float }.
End Intent.

Module ChatMessage.
Record t := mk {
  user_id : str;
  message : str;
  channel : str
}.

(** [message: str = Field(..., min_length=1, max_length=1000)] *)
Definition valid (m : t) : bool :=
  (1 <=? length (message m))%nat && (length (message m) <=? 1000)%nat.
End ChatMessage.

Record datetime := {
  year : N; month : N; day : N; hour : N; minute : N; second : N
}.

Definition digit (n : N) : codepoint := 48 + n mod 10.

(** [strftime('%Y%m%d_%H%M%S')], for years of four digits. *)
Definition strftime (d : datetime) : str :=
  [digit (year d / 1000); digit (year d / 100); digit (year d / 10); digit (year d)]
  ++ [digit (month d / 10); digit (month d)]
  ++ [digit (day d / 10); digit (day d)]
  ++ u "_"
  ++ [digit (hour d / 10); digit (hour d)]
  ++ [digit (minute d / 10); digit (minute d)]
  ++ [digit (second d / 10); digit (second d)].

Module ChatResponse.
Record t := mk {
  response : str;
  intent : str;
  confidence : float;
  requires_human : bool;
  suggested_actions : list str;
  session_id : str;
  timestamp : datetime
}.

(** Construction validates [confidence: float = Field(..., ge=0, le=1)];
    [None] stands for the validation error pydantic raises. *)
Definition new (response intent : str) (confidence : float)
    (requires_human : bool) (suggested_actions : list str)
    (session_id : str) (timestamp : datetime) : option t :=
  if ((0 <=? confidence) && (confidence <=? 1))%float
  then Some (mk response intent confidence requires_human
                suggested_actions session_id timestamp)
  else None.
End ChatResponse.

(** The arguments of one [log_conversation] call queued on
    [BackgroundTasks]. *)
Record task := {
  task_message : ChatMessage.t;
  task_response : str;
  task_intent : Intent.t
}.

Abbreviation BackgroundTasks := (list task).

(** What the route answers: the response model, or the [HTTPException] with
    status 500 raised by the handler's [except] branch. *)
Inductive reply :=
| Ok200 (r : ChatResponse.t)
| Error500.

(** The dict [log_data] written by [log_conversation]. *)
Record log_data := {
  log_timestamp : datetime;
  log_user_id : str;
  log_channel : str;
  log_user_message : str;
  log_bot_response : str;
  log_intent : str;
  log_confidence : float
}.

(** ** The rules *)

Section Rules.
Context `{CaseTables}.

Definition process_message (message : ChatMessage.t) : str :=
  let user_msg := lower (ChatMessage.message message) in
  if any (fun word => str_contains user_msg word)
       [u "olá"; u "oi"; u "bom dia"; u "boa tarde"] then
    u "Olá! 👋 Sou o assistente virtual da empresa. Como posso ajudá-lo hoje? Posso auxiliar com informações sobre pedidos, produtos, suporte técnico e muito mais!"
  else if any (fun word => str_contains user_msg word)
       [u "pedido"; u "status"; u "encomenda"] then
    u "📦 Para consultar seu pedido, preciso do número. Pode me informar o número do pedido? Exemplo: #12345. Com essa informação, posso verificar o status, rastreamento e previsão de entrega!"
  else if any (fun word => str_contains user_msg word)
       [u "produto"; u "preço"; u "informação"] then
    u "🛍️ Temos diversos produtos disponíveis! Pode me dizer qual produto específico você tem interesse? Posso fornecer informações sobre características, preços, disponibilidade e formas de pagamento."
  else if any (fun word => str_contains user_msg word)
       [u "problema"; u "não funciona"; u "defeito"; u "suporte"] then
    u "🛠️ Sinto muito pelo inconveniente! Vou ajudar você a resolver isso. Pode me descrever o problema com mais detalhes? Qual produto está apresentando problema e o que exatamente está acontecendo?"
  else if any (fun word => str_contains user_msg word)
       [u "cobrança"; u "fatura"; u "pagamento"] then
    u "💰 Questões de cobrança são importantes! Posso ajudar com dúvidas sobre sua fatura, formas de pagamento, vencimentos e negociação. Qual é sua dúvida específica sobre cobrança?"
  else if any (fun word => str_contains user_msg word)
       [u "cancelar"; u "cancelamento"] then
    u "❌ Entendi que você deseja cancelar algo. Para processar seu cancelamento de forma adequada, preciso de mais informações. O que você gostaria de cancelar? Pedido, assinatura ou outro serviço?"
  else if any (fun word => str_contains user_msg word)
       [u "obrigado"; u "valeu"; u "muito bom"] then
    u "😊 Fico feliz em ter ajudado! Se precisar de mais alguma coisa, estarei sempre aqui. Tenha um ótimo dia! ⭐"
  else
    u "🤔 Interessante! Estou processando sua solicitação. Embora eu possa ajudar com diversas questões, para esta situação específica, que tal falar com um de nossos especialistas? Eles terão todo prazer em ajudar você!".

Definition classify_intent (message : str) : Intent.t :=
  let message_lower := lower message in
  if any (fun word => str_contains message_lower word)
       [u "pedido"; u "status"; u "encomenda"; u "tracking"] then
    Intent.mk (u "order_status") 0.95
  else if any (fun word => str_contains message_lower word)
       [u "produto"; u "preço"; u "informação"; u "detalhes"] then
    Intent.mk (u "product_info") 0.90
  else if any (fun word => str_contains message_lower word)
       [u "cobrança"; u "fatura"; u "pagamento"; u "valor"] then
    Intent.mk (u "billing") 0.88
  else if any (fun word => str_contains message_lower word)
       [u "problema"; u "defeito"; u "não funciona"; u "suporte"] then
    Intent.mk (u "technical_support") 0.92
  else if any (fun word => str_contains message_lower word)
       [u "reclamação"; u "insatisfeito"; u "ruim"] then
    Intent.mk (u "complaint") 0.85
  else if any (fun word => str_contains message_lower word)
       [u "olá"; u "oi"; u "bom dia"; u "boa tarde"] then
    Intent.mk (u "greeting") 0.98
  else
    Intent.mk (u "general_inquiry") 0.70.

Definition human_keywords : list str :=
  [u "falar com"; u "atendente"; u "pessoa"; u "humano"; u "gerente"; u "supervisão"].

Definition should_transfer_to_human (message : str) (intent : Intent.t) : bool :=
  if any (fun keyword => str_contains (lower message) keyword) human_keywords then
    true
  else if bool_decide (Intent.type intent = u "complaint")
          && (0.8 <? Intent.confidence intent)%float then
    true
  else if (Intent.confidence intent <? 0.7)%float then
    true
  else
    false.

(** The dict literal [suggestions]; its keys are pairwise distinct. *)
Definition suggestions : gmap str (list str) :=
  list_to_map [
    (u "order_status",
      [u "📦 Consultar outro pedido";
       u "📱 Receber notificações por WhatsApp";
       u "📧 Falar com atendente"]);
    (u "product_info",
      [u "🛍️ Ver produtos similares";
       u "💰 Consultar formas de pagamento";
       u "📞 Falar com vendedor"]);
    (u "technical_support",
      [u "📋 Acessar tutorial";
       u "🎥 Ver vídeo explicativo";
       u "👨‍💻 Falar com técnico"]);
    (u "billing",
      [u "💳 Ver formas de pagamento";
       u "📄 Segunda via da fatura";
       u "💰 Negociar desconto"]);
    (u "complaint",
      [u "📝 Abrir chamado formal";
       u "📞 Falar com supervisor";
       u "🎁 Ver compensações"])
  ].

Definition generate_suggestions (intent : Intent.t) (message : str) : list str :=
  let intent_type := Intent.type intent in
  default
    [u "❓ Fazer outra pergunta";
     u "📞 Falar com atendente";
     u "🏠 Voltar ao início"]
    (suggestions !! intent_type).

Definition log_conversation (now : datetime) (message : ChatMessage.t)
    (response : str) (intent : Intent.t) : log_data :=
  {| log_timestamp := now;
     log_user_id := ChatMessage.user_id message;
     log_channel := ChatMessage.channel message;
     log_user_message := ChatMessage.message message;
     log_bot_response := response;
     log_intent := Intent.type intent;
     log_confidence := Intent.confidence intent |}.

(** The handler of [POST /chat].  [now] is the clock reading used for the
    session id, [stamp] the one taken by the [timestamp] default factory.
    The handler hands back the answer and the queue of background tasks;
    what [logger] prints is left out. *)
Definition chat (now stamp : datetime) (message : ChatMessage.t)
    (background_tasks : BackgroundTasks) : reply * BackgroundTasks :=
  let response_text := process_message message in
  let intent := classify_intent (ChatMessage.message message) in
  let confidence := 0.95%float in
  let requires_human := should_transfer_to_human (ChatMessage.message message) intent in
  let suggested_actions := generate_suggestions intent (ChatMessage.message message) in
  let session_id :=
    u "session_" ++ ChatMessage.user_id message ++ u "_" ++ strftime now in
  let background_tasks :=
    background_tasks ++
    [{| task_message := message; task_response := response_text; task_intent := intent |}] in
  match ChatResponse.new response_text (Intent.type intent) confidence
          requires_human suggested_actions session_id stamp with
  | Some r => (Ok200 r, background_tasks)
  | None => (Error500, background_tasks)
  end.

(** Running the queued tasks after the answer has been sent. *)
Definition run_background (now : datetime) (background_tasks : BackgroundTasks)
    : list log_data :=
  List.map (fun t => log_conversation now (task_message t) (task_response t) (task_intent t))
    background_tasks.

End Rules.

(** ** Vocabulary of the statements *)

(** Strings made of ASCII code points other than the capital letters. *)
Definition lower_stable (w : str) : bool :=
  forallb (fun c => (c <? 128) && (ascii_lower c =? c)) w.

Definition is_ascii (s : str) : bool := forallb (fun c => c <? 128) s.

Definition greeting_reply : str :=
  u "Olá! 👋 Sou o assistente virtual da empresa. Como posso ajudá-lo hoje? Posso auxiliar com informações sobre pedidos, produtos, suporte técnico e muito mais!".

Definition support_reply : str :=
  u "🛠️ Sinto muito pelo inconveniente! Vou ajudar você a resolver isso. Pode me descrever o problema com mais detalhes? Qual produto está apresentando problema e o que exatamente está acontecendo?".

Definition default_suggestions : list str :=
  [u "❓ Fazer outra pergunta"; u "📞 Falar com atendente"; u "🏠 Voltar ao início"].

Definition confidence_values : list float :=
  [0.98; 0.95; 0.92; 0.90; 0.88; 0.85; 0.70]%float.

Definition greeting_keywords : list str :=
  [u "oi"; u "olá"; u "bom dia"; u "boa tarde"].

(** The trigger words of the five topics the classifier tests before
    [greeting]. *)
Definition keywords_before_greeting : list str :=
  [u "pedido"; u "status"; u "encomenda"; u "tracking";
   u "produto"; u "preço"; u "informação"; u "detalhes";
   u "cobrança"; u "fatura"; u "pagamento"; u "valor";
   u "problema"; u "defeito"; u "não funciona"; u "suporte";
   u "reclamação"; u "insatisfeito"; u "ruim"].

(** The classifier as the specification words it: a table of topics in
    priority order, each with its trigger words and its confidence; the first
    topic with a trigger word inside the lowered message wins. *)
Definition topic_rules : list (str * list str * float) :=
  [(u "order_status", [u "pedido"; u "status"; u "encomenda"; u "tracking"], 0.95);
   (u "product_info", [u "produto"; u "preço"; u "informação"; u "detalhes"], 0.90);
   (u "billing", [u "cobrança"; u "fatura"; u "pagamento"; u "valor"], 0.88);
   (u "technical_support", [u "problema"; u "defeito"; u "não funciona"; u "suporte"], 0.92);
   (u "complaint", [u "reclamação"; u "insatisfeito"; u "ruim"], 0.85);
   (u "greeting", [u "olá"; u "oi"; u "bom dia"; u "boa tarde"], 0.98)]%float.

Definition classify_by_priority `{CaseTables} (message : str) : Intent.t :=
  let message_lower := lower message in
  match find (fun rule => any (fun word => str_contains message_lower word) (snd (fst rule)))
          topic_rules with
  | Some rule => Intent.mk (fst (fst rule)) (snd rule)
  | None => Intent.mk (u "general_inquiry") 0.70
  end.

(** The greeting property as the specification states it. *)
Definition greeting_always_wins `{CaseTables} : Prop :=
  forall m : ChatMessage.t,
    (exists kw, In kw greeting_keywords /\
                str_contains (lower (ChatMessage.message m)) kw = true) ->
    classify_intent (ChatMessage.message m) = Intent.mk (u "greeting") 0.98 /\
    process_message m = greeting_reply.

(** ** Further vocabulary: replies, outputs of the classifier, clock *)

Definition order_reply : str :=
  u "📦 Para consultar seu pedido, preciso do número. Pode me informar o número do pedido? Exemplo: #12345. Com essa informação, posso verificar o status, rastreamento e previsão de entrega!".

Definition product_reply : str :=
  u "🛍️ Temos diversos produtos disponíveis! Pode me dizer qual produto específico você tem interesse? Posso fornecer informações sobre características, preços, disponibilidade e formas de pagamento.".

Definition billing_reply : str :=
  u "💰 Questões de cobrança são importantes! Posso ajudar com dúvidas sobre sua fatura, formas de pagamento, vencimentos e negociação. Qual é sua dúvida específica sobre cobrança?".

Definition cancel_reply : str :=
  u "❌ Entendi que você deseja cancelar algo. Para processar seu cancelamento de forma adequada, preciso de mais informações. O que você gostaria de cancelar? Pedido, assinatura ou outro serviço?".

Definition thanks_reply : str :=
  u "😊 Fico feliz em ter ajudado! Se precisar de mais alguma coisa, estarei sempre aqui. Tenha um ótimo dia! ⭐".

Definition fallback_reply : str :=
  u "🤔 Interessante! Estou processando sua solicitação. Embora eu possa ajudar com diversas questões, para esta situação específica, que tal falar com um de nossos especialistas? Eles terão todo prazer em ajudar você!".

(** The eight texts [process_message] can return. *)
Definition replies : list str :=
  [greeting_reply; order_reply; product_reply; support_reply;
   billing_reply; cancel_reply; thanks_reply; fallback_reply].

(** The seven dicts [classify_intent] can return. *)
Definition classifier_outputs : list Intent.t :=
  [Intent.mk (u "order_status") 0.95;
   Intent.mk (u "product_info") 0.90;
   Intent.mk (u "billing") 0.88;
   Intent.mk (u "technical_support") 0.92;
   Intent.mk (u "complaint") 0.85;
   Intent.mk (u "greeting") 0.98;
   Intent.mk (u "general_inquiry") 0.70].

(** What [datetime] guarantees of its fields, for years of four digits. *)
Definition datetime_valid (d : datetime) : bool :=
  (1000 <=? year d) && (year d <=? 9999)
  && (1 <=? month d) && (month d <=? 12)
  && (1 <=? day d) && (day d <=? 31)
  && (hour d <=? 23) && (minute d <=? 59) && (second d <=? 59).

Definition is_digit (c : codepoint) : bool := (48 <=? c) && (c <=? 57).

(** ** The analytics endpoint *)

(** A value inside a dict literal of [analytics_summary]. *)
Inductive pyval :=
| PyStr (s : str)
| PyInt (z : Z).

(** How the validation of an [int] field reads a text value: the integer it
    denotes, or [None] when the text is refused. *)
Class IntParser := { int_of_str : str -> option Z }.

(** No text without a decimal digit denotes an integer. *)
Definition refuses_digitless `{IntParser} : Prop :=
  forall s : str, is_ascii s = true -> existsb is_digit s = false -> int_of_str s = None.

(** Signed decimal numerals. *)
Module Decimal.

Fixpoint digits (acc : Z) (s : str) : option Z :=
  match s with
  | [] => Some acc
  | c :: rest =>
      if is_digit c then digits (10 * acc + Z.of_N (c - 48))%Z rest else None
  end.

Definition unsigned (s : str) : option Z :=
  match s with
  | [] => None
  | _ :: _ => digits 0 s
  end.

Definition int_of_str (s : str) : option Z :=
  match s with
  | 45 :: rest => Z.opp <$> unsigned rest
  | 43 :: rest => unsigned rest
  | _ => unsigned s
  end.

End Decimal.

#[global] Instance decimal_parser : IntParser := {| int_of_str := Decimal.int_of_str |}.

Module AnalyticsResponse.

Record t := mk {
  total_conversations_today : Z;
  resolution_rate : float;
  average_response_time : float;
  human_handoff_rate : float;
  satisfaction_score : float;
  top_intents : list (gmap str Z)
}.

Section Validation.
Context `{IntParser}.

(** Validation of one value of a [Dict[str, int]]. *)
Definition as_int (v : pyval) : option Z :=
  match v with
  | PyInt z => Some z
  | PyStr s => int_of_str s
  end.

(** Validation of a [Dict[str, int]]: every value must be read as an
    integer. *)
Definition int_dict (d : gmap str pyval) : option (gmap str Z) :=
  if decide (map_Forall (fun _ v => is_Some (as_int v)) d)
  then Some (omap as_int d)
  else None.

(** Construction of the model; [None] stands for the validation error. *)
Definition new (total_conversations_today : Z)
    (resolution_rate average_response_time human_handoff_rate satisfaction_score : float)
    (top_intents : list (gmap str pyval)) : option t :=
  match mapM int_dict top_intents with
  | Some tops =>
      Some (mk total_conversations_today resolution_rate average_response_time
              human_handoff_rate satisfaction_score tops)
  | None => None
  end.

End Validation.

End AnalyticsResponse.

(** The handler of [GET /analytics/summary]; [None] is the validation error
    that leaves the handler.  The keys of each dict literal are distinct. *)
Definition analytics_summary `{IntParser} : option AnalyticsResponse.t :=
  AnalyticsResponse.new 1247 0.96 1.2 0.04 4.8
    [list_to_map [(u "intent", PyStr (u "order_status")); (u "count", PyInt 450)];
     list_to_map [(u "intent", PyStr (u "product_info")); (u "count", PyInt 320)];
     list_to_map [(u "intent", PyStr (u "billing")); (u "count", PyInt 180)];
     list_to_map [(u "intent", PyStr (u "technical_support")); (u "count", PyInt 150)];
     list_to_map [(u "intent", PyStr (u "complaint")); (u "count", PyInt 85)]].

(** ** Facts about strings *)

Example u_ola : u "olá" = [111; 108; 225].
Proof. reflexivity. Qed.

Example u_box : u "📦" = [0x1F4E6].
Proof. reflexivity. Qed.

Example lower_latin1 : lower (u "OLÁ, Bom Dia") = u "olá, bom dia".
Proof. reflexivity. Qed.

Lemma startswith_spec (w s : str) :
  startswith s w = true <-> exists post, s = w ++ post.
Proof.
  revert s. induction w as [| a w IH]; intros s; simpl.
  - split; [exists s; reflexivity | reflexivity].
  - destruct s as [| b s]; simpl.
    + split; [discriminate | intros [post E]; discriminate E].
    + rewrite andb_true_iff, N.eqb_eq, IH. split.
      * intros [-> [post ->]]. exists post. reflexivity.
      * intros [post E]. injection E as -> ->. split; [reflexivity | exists post; reflexivity].
Qed.

Lemma str_contains_unfold (s w : str) :
  str_contains s w =
  startswith s w || match s with [] => false | _ :: s' => str_contains s' w end.
Proof. destruct s; reflexivity. Qed.

Lemma str_contains_spec (s w : str) :
  str_contains s w = true <-> exists pre post, s = pre ++ w ++ post.
Proof.
  split.
  - induction s as [| c s IH]; rewrite str_contains_unfold, orb_true_iff.
    + intros [Hp | Hp]; [| discriminate].
      apply startswith_spec in Hp as [post ->]. exists [], post. reflexivity.
    + intros [Hp | Hp].
      * apply startswith_spec in Hp as [post ->]. exists [], post. reflexivity.
      * destruct (IH Hp) as (pre & post & ->). exists (c :: pre), post. reflexivity.
  - intros (pre & post & ->). induction pre as [| c pre IH].
    + rewrite str_contains_unfold. simpl app.
      replace (startswith (w ++ post) w) with true; [reflexivity |].
      symmetry. apply startswith_spec. exists post. reflexivity.
    + change (str_contains ((c :: pre) ++ w ++ post) w)
        with (startswith (c :: pre ++ w ++ post) w || str_contains (pre ++ w ++ post) w).
      rewrite IH. apply orb_true_r.
Qed.

Lemma any_spec {A} (p : A -> bool) (xs : list A) :
  any p xs = true <-> exists x, In x xs /\ p x = true.
Proof. apply existsb_exists. Qed.

(** ** Facts about [lower] *)

Section LowerFacts.
Context `{CaseTables}.

Lemma lower_ucs4_ascii before c after :
  c < 128 -> lower_ucs4 before c after = [ascii_lower c].
Proof.
  intros Hc. unfold lower_ucs4, to_lower_full.
  destruct (N.eqb_spec c 0x3A3) as [-> | _]; [lia |].
  destruct (N.ltb_spec c 128); [reflexivity | lia].
Qed.

Lemma do_lower_ascii before s :
  is_ascii s = true -> do_lower before s = List.map ascii_lower s.
Proof.
  revert before. induction s as [| c s IH]; intros before Hs; simpl in *.
  - reflexivity.
  - apply andb_true_iff in Hs as [Hc Hs]. apply N.ltb_lt in Hc.
    rewrite lower_ucs4_ascii by assumption. rewrite IH by assumption. reflexivity.
Qed.

Lemma lower_ascii s : is_ascii s = true -> lower s = List.map ascii_lower s.
Proof. apply do_lower_ascii. Qed.

Lemma do_lower_stable before w post :
  lower_stable w = true ->
  do_lower before (w ++ post) = w ++ do_lower (rev w ++ before) post.
Proof.
  revert before. induction w as [| c w IH]; intros before Hw; simpl in *.
  - reflexivity.
  - apply andb_true_iff in Hw as [Hc Hw]. apply andb_true_iff in Hc as [Hlt Hfix].
    apply N.ltb_lt in Hlt. apply N.eqb_eq in Hfix.
    rewrite lower_ucs4_ascii by assumption. rewrite Hfix. simpl.
    rewrite IH by assumption. rewrite <- app_assoc. reflexivity.
Qed.

Lemma do_lower_infix before pre w post :
  lower_stable w = true ->
  exists pre' post', do_lower before (pre ++ w ++ post) = pre' ++ w ++ post'.
Proof.
  intros Hw. revert before. induction pre as [| c pre IH]; intros before.
  - exists [], (do_lower (rev w ++ before) post). simpl. apply do_lower_stable, Hw.
  - destruct (IH (c :: before)) as (pre' & post' & E).
    exists (lower_ucs4 before c (pre ++ w ++ post) ++ pre'), post'.
    simpl. rewrite E, <- app_assoc. reflexivity.
Qed.

(** A lower-case ASCII word found in a message is found in the lowered
    message as well. *)
Lemma lower_keeps_word s w :
  lower_stable w = true -> str_contains s w = true -> str_contains (lower s) w = true.
Proof.
  intros Hw Hs. apply str_contains_spec in Hs as (pre & post & ->).
  apply str_contains_spec. apply do_lower_infix, Hw.
Qed.

End LowerFacts.

(** ** Messages written in ASCII

    On such messages the result of every rule is the same whatever the
    character database says about the other code points. *)

Section Ascii.
Context `{CaseTables}.

Lemma lower_ascii_tables s : is_ascii s = true -> lower s = @lower latin1_tables s.
Proof.
  intros Hs. rewrite lower_ascii by assumption.
  symmetry. apply (@lower_ascii latin1_tables), Hs.
Qed.

Lemma classify_intent_ascii s :
  is_ascii s = true -> classify_intent s = @classify_intent latin1_tables s.
Proof. intros Hs. unfold classify_intent. rewrite lower_ascii_tables by assumption. reflexivity. Qed.

Lemma process_message_ascii m :
  is_ascii (ChatMessage.message m) = true ->
  process_message m = @process_message latin1_tables m.
Proof. intros Hs. unfold process_message. rewrite lower_ascii_tables by assumption. reflexivity. Qed.

Lemma should_transfer_to_human_ascii s intent :
  is_ascii s = true ->
  should_transfer_to_human s intent = @should_transfer_to_human latin1_tables s intent.
Proof.
  intros Hs. unfold should_transfer_to_human. rewrite lower_ascii_tables by assumption.
  reflexivity.
Qed.

Lemma chat_ascii now stamp m bg :
  is_ascii (ChatMessage.message m) = true ->
  chat now stamp m bg = @chat latin1_tables now stamp m bg.
Proof.
  intros Hs. unfold chat.
  rewrite process_message_ascii, classify_intent_ascii, should_transfer_to_human_ascii
    by assumption.
  reflexivity.
Qed.

End Ascii.

(** ** The handler *)

Section Handler.
Context `{CaseTables}.

(** The handler never takes its [except] branch. *)
Lemma chat_returns now stamp m bg :
  chat now stamp m bg =
  (Ok200 (ChatResponse.mk
            (process_message m)
            (Intent.type (classify_intent (ChatMessage.message m)))
            0.95
            (should_transfer_to_human (ChatMessage.message m)
               (classify_intent (ChatMessage.message m)))
            (generate_suggestions (classify_intent (ChatMessage.message m))
               (ChatMessage.message m))
            (u "session_" ++ ChatMessage.user_id m ++ u "_" ++ strftime now)
            stamp),
   bg ++ [{| task_message := m;
             task_response := process_message m;
             task_intent := classify_intent (ChatMessage.message m) |}]).
Proof. reflexivity. Qed.

End Handler.

Lemma float_neq_070_095 : 0.70%float <> 0.95%float.
Proof.
  intros E. apply (f_equal (fun x => (x <? 0.8)%float)) in E.
  vm_compute in E. discriminate E.
Qed.

(** C1. For every valid request the handler of [POST /chat] answers with a
    response whose [confidence] field is the constant 0.95, whatever the
    message says; the constant is not the classifier's value, which for some
    valid request is a different number. *)
Theorem chat_confidence_is_constant `{CaseTables} :
  (forall now stamp (m : ChatMessage.t) bg,
      ChatMessage.valid m = true ->
      exists r, fst (chat now stamp m bg) = Ok200 r /\
                ChatResponse.confidence r = 0.95%float) /\
  (exists m : ChatMessage.t,
      ChatMessage.valid m = true /\
      Intent.confidence (classify_intent (ChatMessage.message m)) <> 0.95%float).
Proof.
  split.
  - intros now stamp m bg _. rewrite chat_returns. eexists. split; reflexivity.
  - exists (ChatMessage.mk (u "u3") (u "xyz123") (u "web")). split; [reflexivity |].
    cbn [ChatMessage.message]. rewrite classify_intent_ascii by (vm_compute; reflexivity).
    vm_compute. exact float_neq_070_095.
Qed.

Lemma chat_confidence_is_constant_witness :
  let m := ChatMessage.mk (u "u1") (u "Qual o status do meu pedido #123?") (u "web") in
  let now := {| year := 2024; month := 5; day := 17; hour := 9; minute := 30; second := 0 |} in
  ChatMessage.valid m = true /\
  exists r, fst (chat now now m []) = Ok200 r /\ ChatResponse.confidence r = 0.95%float.
Proof.
  split; [reflexivity |].
  apply (proj1 (@chat_confidence_is_constant latin1_tables)). reflexivity.
Defined.

(** C2. On the request [{user_id: "u3", message: "xyz123"}] the classifier
    answers [general_inquiry] with confidence 0.70, the comparison
    [0.70 < 0.7] is false and [requires_human] is false; the response carries
    the constant 0.95 in its [confidence] field, while the background log
    entry of the same request records 0.70. *)
Theorem chat_unmatched_message `{CaseTables} now stamp later bg :
  let m := ChatMessage.mk (u "u3") (u "xyz123") (u "web") in
  exists r t,
    chat now stamp m bg = (Ok200 r, bg ++ [t]) /\
    ChatResponse.intent r = u "general_inquiry" /\
    ChatResponse.requires_human r = false /\
    classify_intent (ChatMessage.message m) = Intent.mk (u "general_inquiry") 0.70 /\
    (0.70 <? 0.7)%float = false /\
    ChatResponse.confidence r = 0.95%float /\
    ChatResponse.confidence r <> 0.70%float /\
    log_confidence
      (log_conversation later (task_message t) (task_response t) (task_intent t))
    = 0.70%float.
Proof.
  intros m. rewrite chat_ascii by (vm_compute; reflexivity). rewrite classify_intent_ascii by (vm_compute; reflexivity).
  rewrite chat_returns. eexists. eexists. split; [reflexivity |].
  do 5 (split; [vm_compute; reflexivity |]).
  split; [| vm_compute; reflexivity].
  vm_compute. intros E. symmetry in E. exact (float_neq_070_095 E).
Qed.

(** ** The classifier *)

Lemma any_false {A} (p : A -> bool) (xs : list A) :
  any p xs = false <-> forall x, In x xs -> p x = false.
Proof.
  unfold any. induction xs as [| x xs IH]; simpl.
  - split; [intros _ y [] | reflexivity].
  - rewrite orb_false_iff, IH. split.
    + intros [Hx Hxs] y [<- | Hy]; [assumption | apply Hxs, Hy].
    + intros Hall. split; [apply Hall; left; reflexivity |].
      intros y Hy. apply Hall. right. exact Hy.
Qed.

Lemma any_app {A} (p : A -> bool) (xs ys : list A) :
  any p (xs ++ ys) = any p xs || any p ys.
Proof. apply existsb_app. Qed.

Ltac topic_clash :=
  match goal with
  | E : Intent.mk ?a _ = Intent.mk ?b _ |- _ =>
      exfalso;
      assert (Hne : a <> b) by (vm_compute; discriminate);
      exact (Hne (f_equal Intent.type E))
  end.

Section Classifier.
Context `{CaseTables}.

Lemma greeting_keywords_any (s : str) :
  (exists kw, In kw greeting_keywords /\ str_contains s kw = true) <->
  any (fun word => str_contains s word) [u "olá"; u "oi"; u "bom dia"; u "boa tarde"] = true.
Proof.
  rewrite any_spec. split; intros (kw & Hin & Hkw); exists kw; (split; [| exact Hkw]);
    simpl in Hin |- *; tauto.
Qed.

Lemma classify_intent_greeting_iff (message : str) :
  classify_intent message = Intent.mk (u "greeting") 0.98 <->
  any (fun word => str_contains (lower message) word) keywords_before_greeting = false /\
  any (fun word => str_contains (lower message) word)
    [u "olá"; u "oi"; u "bom dia"; u "boa tarde"] = true.
Proof.
  change keywords_before_greeting with
    ([u "pedido"; u "status"; u "encomenda"; u "tracking"]
     ++ [u "produto"; u "preço"; u "informação"; u "detalhes"]
     ++ [u "cobrança"; u "fatura"; u "pagamento"; u "valor"]
     ++ [u "problema"; u "defeito"; u "não funciona"; u "suporte"]
     ++ [u "reclamação"; u "insatisfeito"; u "ruim"]).
  rewrite !any_app. unfold classify_intent. cbv zeta.
  repeat match goal with
         | |- context [if any ?p ?l then _ else _] => destruct (any p l) eqn:?
         end; simpl; split; try (intros E; topic_clash); try (intros [? ?]; discriminate);
    try (split; reflexivity); try reflexivity.
Qed.

Lemma greeting_always_wins_fails : ~ greeting_always_wins.
Proof.
  intros Hall.
  set (m := ChatMessage.mk (u "u1") (u "Oi, qual o status do meu pedido?") (u "web")).
  assert (Hgreet : exists kw, In kw greeting_keywords /\
            str_contains (lower (ChatMessage.message m)) kw = true).
  { exists (u "oi"). split; [left; reflexivity |].
    rewrite lower_ascii_tables by (vm_compute; reflexivity). vm_compute. reflexivity. }
  assert (Hclass : classify_intent (ChatMessage.message m)
                   = Intent.mk (u "order_status") 0.95).
  { rewrite classify_intent_ascii by (vm_compute; reflexivity). vm_compute. reflexivity. }
  destruct (Hall m Hgreet) as [E _].
  rewrite Hclass in E. topic_clash.
Qed.

End Classifier.

(** C3, as stated: refuted.  The message "Oi, qual o status do meu pedido?"
    contains "oi" once lowered, and the classifier answers [order_status]
    with 0.95, because it tests the order words before the greeting words. *)
Lemma greeting_loses_to_order_status :
  (In (u "oi") greeting_keywords /\
   str_contains (lower (u "Oi, qual o status do meu pedido?")) (u "oi") = true) /\
  classify_intent (u "Oi, qual o status do meu pedido?")
    = Intent.mk (u "order_status") 0.95 /\
  ~ greeting_always_wins.
Proof.
  split; [split; [left; reflexivity | vm_compute; reflexivity] |].
  split; [vm_compute; reflexivity | apply greeting_always_wins_fails].
Qed.

(** C3, amended.  When the lowered message contains "oi", "olá", "bom dia"
    or "boa tarde", the response generator returns the greeting reply; the
    classifier returns [greeting] with 0.98 exactly when, in addition, the
    lowered message contains no trigger word of the five topics tested
    earlier. *)
Theorem greeting_rule `{CaseTables} (m : ChatMessage.t) :
  (exists kw, In kw greeting_keywords /\
              str_contains (lower (ChatMessage.message m)) kw = true) ->
  process_message m = greeting_reply /\
  (classify_intent (ChatMessage.message m) = Intent.mk (u "greeting") 0.98 <->
   forall kw, In kw keywords_before_greeting ->
              str_contains (lower (ChatMessage.message m)) kw = false).
Proof.
  intros Hgreet. apply greeting_keywords_any in Hgreet. split.
  - unfold process_message. cbv zeta. rewrite Hgreet. vm_compute. reflexivity.
  - rewrite classify_intent_greeting_iff, any_false. tauto.
Qed.

Lemma greeting_rule_witness :
  let m := ChatMessage.mk (u "u4") (u "Olá, BOM DIA!") (u "web") in
  (exists kw, In kw greeting_keywords /\
              str_contains (lower (ChatMessage.message m)) kw = true) /\
  process_message m = greeting_reply /\
  classify_intent (ChatMessage.message m) = Intent.mk (u "greeting") 0.98.
Proof.
  intros m.
  assert (Hgreet : exists kw, In kw greeting_keywords /\
                     str_contains (lower (ChatMessage.message m)) kw = true).
  { exists (u "bom dia"). split; [do 2 right; left; reflexivity | vm_compute; reflexivity]. }
  split; [exact Hgreet |].
  destruct (@greeting_rule latin1_tables m Hgreet) as [Hreply Hiff].
  split; [exact Hreply |]. apply Hiff.
  apply any_false. vm_compute. reflexivity.
Defined.

(** C4. Some message that contains "suporte" is answered by the support
    branch of the response generator although the classifier gives it a topic
    other than [technical_support]: "qual o valor do suporte?" is classified
    as [billing], whose words the classifier tests first. *)
Theorem suporte_reply_without_support_topic `{CaseTables} :
  exists m : ChatMessage.t,
    str_contains (ChatMessage.message m) (u "suporte") = true /\
    process_message m = support_reply /\
    classify_intent (ChatMessage.message m) = Intent.mk (u "billing") 0.88 /\
    Intent.type (classify_intent (ChatMessage.message m)) <> u "technical_support".
Proof.
  exists (ChatMessage.mk (u "u5") (u "qual o valor do suporte?") (u "web")).
  rewrite process_message_ascii, classify_intent_ascii by (vm_compute; reflexivity).
  split; [vm_compute; reflexivity |].
  split; [vm_compute; reflexivity |].
  split; [vm_compute; reflexivity |].
  vm_compute. discriminate.
Qed.

(** The word "suporte" is in both tables: alone, it selects the support reply
    and the topic [technical_support]. *)
Lemma suporte_alone `{CaseTables} :
  process_message (ChatMessage.mk (u "u5") (u "suporte") (u "web")) = support_reply /\
  classify_intent (u "suporte") = Intent.mk (u "technical_support") 0.92.
Proof.
  rewrite process_message_ascii, classify_intent_ascii by (vm_compute; reflexivity).
  split; vm_compute; reflexivity.
Qed.

(** ** The handoff decider *)

Lemma should_transfer_to_human_orb `{CaseTables} (message : str) (intent : Intent.t) :
  should_transfer_to_human message intent
  = any (fun keyword => str_contains (lower message) keyword) human_keywords
    || (bool_decide (Intent.type intent = u "complaint")
        && (0.8 <? Intent.confidence intent)%float)
    || (Intent.confidence intent <? 0.7)%float.
Proof.
  unfold should_transfer_to_human.
  destruct (any _ human_keywords); [reflexivity |].
  destruct (bool_decide _ && _); [reflexivity |].
  destruct (_ <? _)%float; reflexivity.
Qed.

(** C5. [should_transfer_to_human] is the disjunction, tested from left to
    right, of: the lowered message contains one of the six human-request
    phrases; the topic is [complaint] and the confidence exceeds 0.8; the
    confidence is below 0.7.  The message "Quero falar com um atendente"
    is handed off whatever the intent. *)
Theorem should_transfer_to_human_rule `{CaseTables} :
  human_keywords
    = [u "falar com"; u "atendente"; u "pessoa"; u "humano"; u "gerente"; u "supervisão"] /\
  (forall (message : str) (intent : Intent.t),
      should_transfer_to_human message intent
      = any (fun keyword => str_contains (lower message) keyword) human_keywords
        || (bool_decide (Intent.type intent = u "complaint")
            && (0.8 <? Intent.confidence intent)%float)
        || (Intent.confidence intent <? 0.7)%float) /\
  (forall (message : str) (intent : Intent.t),
      should_transfer_to_human message intent = true <->
      (exists kw, In kw human_keywords /\ str_contains (lower message) kw = true) \/
      (Intent.type intent = u "complaint" /\ (0.8 <? Intent.confidence intent)%float = true) \/
      (Intent.confidence intent <? 0.7)%float = true) /\
  (forall intent : Intent.t,
      should_transfer_to_human (u "Quero falar com um atendente") intent = true).
Proof.
  split; [reflexivity |]. split; [exact should_transfer_to_human_orb |]. split.
  - intros message intent. rewrite should_transfer_to_human_orb, !orb_true_iff, andb_true_iff, any_spec.
    rewrite bool_decide_eq_true. tauto.
  - intros intent. rewrite should_transfer_to_human_ascii by (vm_compute; reflexivity).
    vm_compute. reflexivity.
Qed.

Lemma should_transfer_to_human_rule_witness :
  should_transfer_to_human (u "Isso é uma reclamação, estou insatisfeito")
    (Intent.mk (u "complaint") 0.85) = true.
Proof.
  apply (proj1 (proj2 (proj2 (@should_transfer_to_human_rule latin1_tables)))).
  right. left. split; vm_compute; reflexivity.
Defined.

(** C6. [classify_intent] computes what the priority table prescribes: on
    the lowered message, the first of [order_status], [product_info],
    [billing], [technical_support], [complaint], [greeting] with a trigger
    word inside the message, together with that topic's confidence, and
    [general_inquiry] with 0.70 when there is none.  Hence a message with
    "pedido", "status" or "encomenda" in it is an [order_status] at 0.95. *)
Theorem classify_intent_priority `{CaseTables} (message : str) :
  classify_intent message = classify_by_priority message /\
  (forall kw, In kw [u "pedido"; u "status"; u "encomenda"] ->
     str_contains message kw = true \/ str_contains (lower message) kw = true ->
     classify_intent message = Intent.mk (u "order_status") 0.95).
Proof.
  split.
  - unfold classify_intent, classify_by_priority, topic_rules. cbv zeta. cbn [find fst snd].
    repeat match goal with
           | |- context [if any ?p ?l then _ else _] => destruct (any p l)
           end; reflexivity.
  - intros kw Hin Hkw.
    assert (Hlow : str_contains (lower message) kw = true).
    { destruct Hkw as [Hraw | Hlow]; [| exact Hlow].
      apply lower_keeps_word; [| exact Hraw].
      destruct Hin as [<- | [<- | [<- | []]]]; vm_compute; reflexivity. }
    assert (Hany : any (fun word => str_contains (lower message) word)
                     [u "pedido"; u "status"; u "encomenda"; u "tracking"] = true).
    { apply any_spec. exists kw. split; [| exact Hlow]. simpl in Hin |- *. tauto. }
    unfold classify_intent. cbv zeta. rewrite Hany. reflexivity.
Qed.

Lemma classify_intent_priority_witness :
  In (u "status") [u "pedido"; u "status"; u "encomenda"] /\
  str_contains (u "Qual o STATUS da entrega?") (u "status") = false /\
  str_contains (lower (u "Qual o STATUS da entrega?")) (u "status") = true /\
  classify_intent (u "Qual o STATUS da entrega?") = Intent.mk (u "order_status") 0.95.
Proof.
  assert (Hin : In (u "status") [u "pedido"; u "status"; u "encomenda"])
    by (right; left; reflexivity).
  assert (Hlow : str_contains (lower (u "Qual o STATUS da entrega?")) (u "status") = true)
    by (vm_compute; reflexivity).
  split; [exact Hin |]. split; [vm_compute; reflexivity |]. split; [exact Hlow |].
  exact (proj2 (@classify_intent_priority latin1_tables (u "Qual o STATUS da entrega?"))
           (u "status") Hin (or_intror Hlow)).
Defined.

(** ** Confidence values *)

Ltac classifier_cases :=
  unfold classify_intent; cbv zeta;
  repeat match goal with
         | |- context [if any ?p ?l then _ else _] => destruct (any p l)
         end;
  cbn [Intent.type Intent.confidence].

(** C7. The confidence produced for a message is one of 0.98, 0.95, 0.92,
    0.90, 0.88, 0.85, 0.70 and is determined by the topic the message matched
    and by nothing else.  This holds of the value the classifier attaches to
    the message, and of the value the handler puts in the response: two
    requests whose messages match the same topic get the same confidence,
    whoever the user, whatever the channel, the clock and the queue of
    background tasks. *)
Theorem confidence_in_fixed_set `{CaseTables} :
  (forall message : str,
      In (Intent.confidence (classify_intent message)) confidence_values) /\
  (forall message1 message2 : str,
      Intent.type (classify_intent message1) = Intent.type (classify_intent message2) ->
      Intent.confidence (classify_intent message1)
      = Intent.confidence (classify_intent message2)) /\
  (forall now stamp (m : ChatMessage.t) bg,
      exists r, fst (chat now stamp m bg) = Ok200 r /\
                In (ChatResponse.confidence r) confidence_values) /\
  (forall now1 stamp1 now2 stamp2 (m1 m2 : ChatMessage.t) bg1 bg2
          (r1 r2 : ChatResponse.t),
      fst (chat now1 stamp1 m1 bg1) = Ok200 r1 ->
      fst (chat now2 stamp2 m2 bg2) = Ok200 r2 ->
      Intent.type (classify_intent (ChatMessage.message m1))
      = Intent.type (classify_intent (ChatMessage.message m2)) ->
      ChatResponse.confidence r1 = ChatResponse.confidence r2).
Proof.
  split; [| split; [| split]].
  - intros message. unfold confidence_values. classifier_cases. cbn [In].
    all: repeat first [left; reflexivity | right].
  - intros message1 message2. classifier_cases.
    all: intros E; first [reflexivity | exfalso; revert E; vm_compute; discriminate].
  - intros now stamp m bg. rewrite chat_returns. eexists. split; [reflexivity |].
    cbn [ChatResponse.confidence]. right. left. reflexivity.
  - intros now1 stamp1 now2 stamp2 m1 m2 bg1 bg2 r1 r2 Hr1 Hr2 _.
    rewrite chat_returns in Hr1, Hr2. cbn [fst] in Hr1, Hr2.
    assert (Hc1 : ChatResponse.confidence r1 = 0.95%float)
      by (injection Hr1 as <-; reflexivity).
    assert (Hc2 : ChatResponse.confidence r2 = 0.95%float)
      by (injection Hr2 as <-; reflexivity).
    rewrite Hc1, Hc2. reflexivity.
Qed.

Lemma confidence_in_fixed_set_witness :
  let now := {| year := 2024; month := 5; day := 17; hour := 9; minute := 30; second := 0 |} in
  let later := {| year := 2024; month := 5; day := 18; hour := 21; minute := 5; second := 42 |} in
  let m1 := ChatMessage.mk (u "u1") (u "bom dia") (u "web") in
  let m2 := ChatMessage.mk (u "u2") (u "Oi!") (u "whatsapp") in
  Intent.type (classify_intent (ChatMessage.message m1))
  = Intent.type (classify_intent (ChatMessage.message m2)) /\
  Intent.confidence (classify_intent (ChatMessage.message m1))
  = Intent.confidence (classify_intent (ChatMessage.message m2)) /\
  exists r1 r2 : ChatResponse.t,
    fst (chat now now m1 []) = Ok200 r1 /\
    fst (chat later later m2 []) = Ok200 r2 /\
    ChatResponse.confidence r1 = ChatResponse.confidence r2.
Proof.
  intros now later m1 m2.
  assert (Htopic : Intent.type (classify_intent (ChatMessage.message m1))
                   = Intent.type (classify_intent (ChatMessage.message m2)))
    by (vm_compute; reflexivity).
  split; [exact Htopic |]. split.
  - exact (proj1 (proj2 (@confidence_in_fixed_set latin1_tables))
             (ChatMessage.message m1) (ChatMessage.message m2) Htopic).
  - destruct (proj1 (proj2 (proj2 (@confidence_in_fixed_set latin1_tables))) now now m1 [])
      as [r1 [Hr1 _]].
    destruct (proj1 (proj2 (proj2 (@confidence_in_fixed_set latin1_tables)))
                later later m2 [])
      as [r2 [Hr2 _]].
    exists r1, r2. split; [exact Hr1 |]. split; [exact Hr2 |].
    exact (proj2 (proj2 (proj2 (@confidence_in_fixed_set latin1_tables)))
             now now later later m1 m2 [] [] r1 r2 Hr1 Hr2 Htopic).
Defined.

(** C8. A confidence below 0.7 hands the conversation off whatever the
    message and the topic; no output of the classifier is below 0.7, its
    least confidence being the 0.70 of [general_inquiry]. *)
Theorem low_confidence_hands_off `{CaseTables} :
  (forall (message : str) (intent : Intent.t),
      (Intent.confidence intent <? 0.7)%float = true ->
      should_transfer_to_human message intent = true) /\
  (forall message : str,
      (Intent.confidence (classify_intent message) <? 0.7)%float = false /\
      (0.70 <=? Intent.confidence (classify_intent message))%float = true) /\
  (exists message : str, Intent.confidence (classify_intent message) = 0.70%float).
Proof.
  split; [| split].
  - intros message intent Hlow. rewrite should_transfer_to_human_orb, Hlow.
    apply orb_true_r.
  - intros message. classifier_cases. all: split; vm_compute; reflexivity.
  - exists (u "xyz123"). rewrite classify_intent_ascii by (vm_compute; reflexivity).
    vm_compute. reflexivity.
Qed.

Lemma low_confidence_hands_off_witness :
  (Intent.confidence (Intent.mk (u "order_status") 0.5) <? 0.7)%float = true /\
  should_transfer_to_human (u "onde está o meu pedido?") (Intent.mk (u "order_status") 0.5)
  = true.
Proof.
  assert (Hlow : (Intent.confidence (Intent.mk (u "order_status") 0.5) <? 0.7)%float = true)
    by (vm_compute; reflexivity).
  split; [exact Hlow |].
  exact (proj1 (@low_confidence_hands_off latin1_tables)
           (u "onde está o meu pedido?") (Intent.mk (u "order_status") 0.5) Hlow).
Defined.

(** ** Suggestions *)

Lemma suggestions_lookup_Some (topic : str) (actions : list str) :
  suggestions !! topic = Some actions ->
  In (topic, actions)
    [(u "order_status",
        [u "📦 Consultar outro pedido";
         u "📱 Receber notificações por WhatsApp";
         u "📧 Falar com atendente"]);
     (u "product_info",
        [u "🛍️ Ver produtos similares";
         u "💰 Consultar formas de pagamento";
         u "📞 Falar com vendedor"]);
     (u "technical_support",
        [u "📋 Acessar tutorial";
         u "🎥 Ver vídeo explicativo";
         u "👨‍💻 Falar com técnico"]);
     (u "billing",
        [u "💳 Ver formas de pagamento";
         u "📄 Segunda via da fatura";
         u "💰 Negociar desconto"]);
     (u "complaint",
        [u "📝 Abrir chamado formal";
         u "📞 Falar com supervisor";
         u "🎁 Ver compensações"])].
Proof.
  intros Hlook. apply list_elem_of_In. unfold suggestions in Hlook.
  exact (elem_of_list_to_map_2 _ _ _ Hlook).
Qed.

Lemma suggestions_lookup_None (topic : str) :
  ~ In topic [u "order_status"; u "product_info"; u "technical_support";
              u "billing"; u "complaint"] ->
  suggestions !! topic = None.
Proof.
  intros Hout. unfold suggestions. apply not_elem_of_list_to_map_1.
  intros Hin. apply Hout. apply list_elem_of_In. exact Hin.
Qed.

Lemma generate_suggestions_length (intent : Intent.t) (message : str) :
  length (generate_suggestions intent message) = 3%nat.
Proof.
  unfold generate_suggestions. cbv zeta.
  destruct (suggestions !! Intent.type intent) as [actions |] eqn:Hlook; [| reflexivity].
  apply suggestions_lookup_Some in Hlook. cbn [default].
  destruct Hlook as [E | [E | [E | [E | [E | []]]]]];
    apply (f_equal snd) in E; cbn [snd] in E; subst actions; reflexivity.
Qed.

(** C9. [generate_suggestions] returns three strings in a fixed order: the
    entry of the topic for [order_status], [product_info],
    [technical_support], [billing] and [complaint], and the default three for
    any other topic.  Every response of the handler therefore carries three
    suggested actions. *)
Theorem generate_suggestions_table `{CaseTables} :
  (forall (intent : Intent.t) (message : str),
      length (generate_suggestions intent message) = 3%nat) /\
  (forall (c : float) (message : str),
      generate_suggestions (Intent.mk (u "order_status") c) message
      = [u "📦 Consultar outro pedido";
         u "📱 Receber notificações por WhatsApp";
         u "📧 Falar com atendente"] /\
      generate_suggestions (Intent.mk (u "product_info") c) message
      = [u "🛍️ Ver produtos similares";
         u "💰 Consultar formas de pagamento";
         u "📞 Falar com vendedor"] /\
      generate_suggestions (Intent.mk (u "technical_support") c) message
      = [u "📋 Acessar tutorial";
         u "🎥 Ver vídeo explicativo";
         u "👨‍💻 Falar com técnico"] /\
      generate_suggestions (Intent.mk (u "billing") c) message
      = [u "💳 Ver formas de pagamento";
         u "📄 Segunda via da fatura";
         u "💰 Negociar desconto"] /\
      generate_suggestions (Intent.mk (u "complaint") c) message
      = [u "📝 Abrir chamado formal";
         u "📞 Falar com supervisor";
         u "🎁 Ver compensações"]) /\
  (forall (intent : Intent.t) (message : str),
      ~ In (Intent.type intent)
          [u "order_status"; u "product_info"; u "technical_support";
           u "billing"; u "complaint"] ->
      generate_suggestions intent message = default_suggestions) /\
  (forall now stamp (m : ChatMessage.t) bg,
      exists r, fst (chat now stamp m bg) = Ok200 r /\
                length (ChatResponse.suggested_actions r) = 3%nat).
Proof.
  split; [exact generate_suggestions_length |]. split; [| split].
  - intros c message. do 4 (split; [vm_compute; reflexivity |]). vm_compute. reflexivity.
  - intros intent message Hout. unfold generate_suggestions. cbv zeta.
    rewrite (suggestions_lookup_None _ Hout). reflexivity.
  - intros now stamp m bg. rewrite chat_returns. eexists. split; [reflexivity |].
    cbn [ChatResponse.suggested_actions]. apply generate_suggestions_length.
Qed.

Lemma generate_suggestions_table_witness :
  ~ In (Intent.type (Intent.mk (u "greeting") 0.98))
      [u "order_status"; u "product_info"; u "technical_support";
       u "billing"; u "complaint"] /\
  generate_suggestions (Intent.mk (u "greeting") 0.98) (u "bom dia") = default_suggestions.
Proof.
  assert (Hout : ~ In (Intent.type (Intent.mk (u "greeting") 0.98))
                   [u "order_status"; u "product_info"; u "technical_support";
                    u "billing"; u "complaint"]).
  { vm_compute. intros [E | [E | [E | [E | [E | []]]]]]; discriminate E. }
  split; [exact Hout |].
  exact (proj1 (proj2 (proj2 (@generate_suggestions_table latin1_tables)))
           (Intent.mk (u "greeting") 0.98) (u "bom dia") Hout).
Defined.

(** C10. The suggestions depend on the intent's type alone: two calls whose
    intents have the same type return the same list, whatever the two
    messages and the two confidences are. *)
Theorem generate_suggestions_ignores_message (intent1 intent2 : Intent.t)
    (message1 message2 : str) :
  Intent.type intent1 = Intent.type intent2 ->
  generate_suggestions intent1 message1 = generate_suggestions intent2 message2.
Proof.
  intros Htype. unfold generate_suggestions. cbv zeta. rewrite Htype. reflexivity.
Qed.

Lemma generate_suggestions_ignores_message_witness :
  Intent.type (Intent.mk (u "billing") 0.88) = Intent.type (Intent.mk (u "billing") 0.25) /\
  generate_suggestions (Intent.mk (u "billing") 0.88) (u "minha fatura veio errada")
  = generate_suggestions (Intent.mk (u "billing") 0.25) (u "xyz123").
Proof.
  split; [reflexivity |].
  apply generate_suggestions_ignores_message. reflexivity.
Defined.

(** ** The rules taken together *)

Lemma any_incl {A} (p : A -> bool) (xs ys : list A) :
  (forall x, In x xs -> In x ys) -> any p xs = true -> any p ys = true.
Proof.
  intros Hincl Hxs. apply any_spec in Hxs as (x & Hin & Hp).
  apply any_spec. exists x. split; [apply Hincl, Hin | exact Hp].
Qed.

Lemma any_incl_false {A} (p : A -> bool) (xs ys : list A) :
  (forall x, In x xs -> In x ys) -> any p ys = false -> any p xs = false.
Proof.
  intros Hincl Hys. destruct (any p xs) eqn:Hxs; [| reflexivity].
  rewrite (any_incl p xs ys Hincl Hxs) in Hys. discriminate Hys.
Qed.

Section Pipeline.
Context `{CaseTables}.

(** X1. Inside the handler the hand-off flag is decided by two tests only:
    a human-request phrase in the lowered message, or a message classified as
    [complaint]. *)
Theorem requires_human_in_chat (now stamp : datetime) (m : ChatMessage.t)
    (bg : BackgroundTasks) :
  exists r,
    fst (chat now stamp m bg) = Ok200 r /\
    ChatResponse.requires_human r
    = any (fun keyword => str_contains (lower (ChatMessage.message m)) keyword)
        human_keywords
      || bool_decide (ChatResponse.intent r = u "complaint").
Proof.
  rewrite chat_returns. eexists. split; [reflexivity |].
  cbn [ChatResponse.requires_human ChatResponse.intent].
  rewrite should_transfer_to_human_orb.
  destruct (any _ human_keywords); [reflexivity |].
  cbn [orb]. classifier_cases; vm_compute; reflexivity.
Qed.

End Pipeline.

Ltac reply_clash :=
  match goal with
  | E : ?a = ?b |- _ =>
      exfalso; assert (Hne : a <> b) by (vm_compute; discriminate); exact (Hne E)
  end.

Ltac sublist := intros ? ?; cbn [In] in *; tauto.

(** X2. When the response generator gives the order reply, the classifier
    calls the message [order_status]: the three order words of the generator
    are among the four the classifier tests first. *)
Theorem order_reply_means_order_status `{CaseTables} (m : ChatMessage.t) :
  process_message m = order_reply ->
  classify_intent (ChatMessage.message m) = Intent.mk (u "order_status") 0.95.
Proof.
  unfold process_message. cbv zeta.
  destruct (any _ [u "olá"; u "oi"; u "bom dia"; u "boa tarde"]);
    [intros E; reply_clash |].
  destruct (any _ [u "pedido"; u "status"; u "encomenda"]) eqn:Horder.
  - intros _. unfold classify_intent. cbv zeta.
    rewrite (any_incl _ [u "pedido"; u "status"; u "encomenda"]
               [u "pedido"; u "status"; u "encomenda"; u "tracking"]
               ltac:(sublist) Horder).
    reflexivity.
  - repeat match goal with
           | |- context [if any ?p ?l then _ else _] => destruct (any p l)
           end; intros E; reply_clash.
Qed.

Lemma order_reply_means_order_status_witness :
  let m := ChatMessage.mk (u "u1") (u "Qual o status do meu pedido #123?") (u "web") in
  process_message m = order_reply /\
  classify_intent (ChatMessage.message m) = Intent.mk (u "order_status") 0.95.
Proof.
  intros m.
  assert (Hreply : process_message m = order_reply) by (vm_compute; reflexivity).
  split; [exact Hreply |].
  exact (@order_reply_means_order_status latin1_tables m Hreply).
Defined.

(** X3. A message the classifier leaves as [general_inquiry] is answered with
    the cancellation reply, the thanks reply or the fallback reply, never
    with a greeting, order, product, support or billing reply. *)
Theorem general_inquiry_replies `{CaseTables} (m : ChatMessage.t) :
  Intent.type (classify_intent (ChatMessage.message m)) = u "general_inquiry" ->
  process_message m = cancel_reply \/
  process_message m = thanks_reply \/
  process_message m = fallback_reply.
Proof.
  unfold classify_intent, process_message. cbv zeta.
  destruct (any _ [u "pedido"; u "status"; u "encomenda"; u "tracking"]) eqn:H1;
    [cbn [Intent.type]; intros E; reply_clash |].
  destruct (any _ [u "produto"; u "preço"; u "informação"; u "detalhes"]) eqn:H2;
    [cbn [Intent.type]; intros E; reply_clash |].
  destruct (any _ [u "cobrança"; u "fatura"; u "pagamento"; u "valor"]) eqn:H3;
    [cbn [Intent.type]; intros E; reply_clash |].
  destruct (any _ [u "problema"; u "defeito"; u "não funciona"; u "suporte"]) eqn:H4;
    [cbn [Intent.type]; intros E; reply_clash |].
  destruct (any _ [u "reclamação"; u "insatisfeito"; u "ruim"]) eqn:H5;
    [cbn [Intent.type]; intros E; reply_clash |].
  destruct (any _ [u "olá"; u "oi"; u "bom dia"; u "boa tarde"]) eqn:H6;
    [cbn [Intent.type]; intros E; reply_clash |].
  intros _.
  rewrite (any_incl_false _ [u "pedido"; u "status"; u "encomenda"]
             [u "pedido"; u "status"; u "encomenda"; u "tracking"] ltac:(sublist) H1).
  rewrite (any_incl_false _ [u "produto"; u "preço"; u "informação"]
             [u "produto"; u "preço"; u "informação"; u "detalhes"] ltac:(sublist) H2).
  rewrite (any_incl_false _ [u "problema"; u "não funciona"; u "defeito"; u "suporte"]
             [u "problema"; u "defeito"; u "não funciona"; u "suporte"] ltac:(sublist) H4).
  rewrite (any_incl_false _ [u "cobrança"; u "fatura"; u "pagamento"]
             [u "cobrança"; u "fatura"; u "pagamento"; u "valor"] ltac:(sublist) H3).
  destruct (any _ [u "cancelar"; u "cancelamento"]);
    [left; vm_compute; reflexivity |].
  destruct (any _ [u "obrigado"; u "valeu"; u "muito bom"]);
    [right; left; vm_compute; reflexivity | right; right; vm_compute; reflexivity].
Qed.

Lemma general_inquiry_replies_witness :
  let m := ChatMessage.mk (u "u6") (u "Quero cancelar tudo") (u "web") in
  Intent.type (classify_intent (ChatMessage.message m)) = u "general_inquiry" /\
  (process_message m = cancel_reply \/
   process_message m = thanks_reply \/
   process_message m = fallback_reply).
Proof.
  intros m.
  assert (Htopic : Intent.type (classify_intent (ChatMessage.message m)) = u "general_inquiry")
    by (vm_compute; reflexivity).
  split; [exact Htopic |].
  exact (@general_inquiry_replies latin1_tables m Htopic).
Defined.

(** X4. Reply and topic part ways on every message that, once lowered,
    mentions a support word and a billing word and nothing the two functions
    test earlier: the generator, which looks at support before billing,
    gives the support reply, and the classifier, which looks at billing before
    support, answers [billing]. *)
Theorem support_reply_with_billing_topic `{CaseTables} (m : ChatMessage.t) :
  let contains := fun word => str_contains (lower (ChatMessage.message m)) word in
  any contains [u "olá"; u "oi"; u "bom dia"; u "boa tarde"] = false ->
  any contains [u "pedido"; u "status"; u "encomenda"; u "tracking"] = false ->
  any contains [u "produto"; u "preço"; u "informação"; u "detalhes"] = false ->
  any contains [u "problema"; u "não funciona"; u "defeito"; u "suporte"] = true ->
  any contains [u "cobrança"; u "fatura"; u "pagamento"; u "valor"] = true ->
  process_message m = support_reply /\
  classify_intent (ChatMessage.message m) = Intent.mk (u "billing") 0.88.
Proof.
  intros contains Hgreet Horder Hproduct Hsupport Hbilling. subst contains. split.
  - unfold process_message. cbv zeta. rewrite Hgreet.
    rewrite (any_incl_false _ [u "pedido"; u "status"; u "encomenda"]
               [u "pedido"; u "status"; u "encomenda"; u "tracking"] ltac:(sublist) Horder).
    rewrite (any_incl_false _ [u "produto"; u "preço"; u "informação"]
               [u "produto"; u "preço"; u "informação"; u "detalhes"]
               ltac:(sublist) Hproduct).
    rewrite Hsupport. vm_compute. reflexivity.
  - unfold classify_intent. cbv zeta. rewrite Horder, Hproduct, Hbilling. reflexivity.
Qed.

Lemma support_reply_with_billing_topic_witness :
  let m := ChatMessage.mk (u "u7") (u "Minha fatura veio errada, que problema!") (u "web") in
  process_message m = support_reply /\
  classify_intent (ChatMessage.message m) = Intent.mk (u "billing") 0.88.
Proof.
  intros m.
  apply (@support_reply_with_billing_topic latin1_tables m); vm_compute; reflexivity.
Defined.

(** X5. The classifier returns one of seven dicts, and each of the seven is
    returned for some message. *)
Theorem classify_intent_image `{CaseTables} :
  (forall message : str, In (classify_intent message) classifier_outputs) /\
  (forall intent : Intent.t, In intent classifier_outputs ->
     exists message : str, classify_intent message = intent).
Proof.
  split.
  - intros message. unfold classify_intent, classifier_outputs. cbv zeta.
    repeat match goal with
           | |- context [if any ?p ?l then _ else _] => destruct (any p l)
           end; cbn [In]; repeat first [left; reflexivity | right].
  - intros intent Hin. unfold classifier_outputs in Hin. cbn [In] in Hin.
    destruct Hin as [<- | [<- | [<- | [<- | [<- | [<- | [<- | []]]]]]]].
    + exists (u "pedido"). rewrite classify_intent_ascii by (vm_compute; reflexivity).
      vm_compute. reflexivity.
    + exists (u "produto"). rewrite classify_intent_ascii by (vm_compute; reflexivity).
      vm_compute. reflexivity.
    + exists (u "fatura"). rewrite classify_intent_ascii by (vm_compute; reflexivity).
      vm_compute. reflexivity.
    + exists (u "defeito"). rewrite classify_intent_ascii by (vm_compute; reflexivity).
      vm_compute. reflexivity.
    + exists (u "insatisfeito"). rewrite classify_intent_ascii by (vm_compute; reflexivity).
      vm_compute. reflexivity.
    + exists (u "bom dia"). rewrite classify_intent_ascii by (vm_compute; reflexivity).
      vm_compute. reflexivity.
    + exists (u "xyz123"). rewrite classify_intent_ascii by (vm_compute; reflexivity).
      vm_compute. reflexivity.
Qed.

Lemma classify_intent_image_witness :
  In (Intent.mk (u "complaint") 0.85) classifier_outputs /\
  exists message : str, classify_intent message = Intent.mk (u "complaint") 0.85.
Proof.
  assert (Hin : In (Intent.mk (u "complaint") 0.85) classifier_outputs)
    by (do 4 right; left; reflexivity).
  split; [exact Hin |].
  exact (proj2 (@classify_intent_image latin1_tables) _ Hin).
Defined.

(** X6. The suggestions of a response are the default three exactly when the
    message was classified [greeting] or [general_inquiry]; the five other
    topics the classifier can return all have their own entry. *)
Theorem default_suggestions_in_chat `{CaseTables} (now stamp : datetime)
    (m : ChatMessage.t) (bg : BackgroundTasks) :
  exists r,
    fst (chat now stamp m bg) = Ok200 r /\
    (ChatResponse.suggested_actions r = default_suggestions <->
     ChatResponse.intent r = u "greeting" \/ ChatResponse.intent r = u "general_inquiry").
Proof.
  rewrite chat_returns. eexists. split; [reflexivity |].
  cbn [ChatResponse.suggested_actions ChatResponse.intent].
  classifier_cases;
    (split;
     [ intros E;
       first [ left; vm_compute; reflexivity
             | right; vm_compute; reflexivity
             | exfalso; revert E; vm_compute; discriminate ]
     | intros [E | E];
       first [ vm_compute; reflexivity
             | exfalso; revert E; vm_compute; discriminate ] ]).
Qed.

(** ** Letter case *)

Section LowerWords.
Context `{CaseTables}.

Lemma do_lower_ascii_word before w post :
  is_ascii w = true ->
  do_lower before (w ++ post) = List.map ascii_lower w ++ do_lower (rev w ++ before) post.
Proof.
  revert before. induction w as [| c w IH]; intros before Hw; simpl in *.
  - reflexivity.
  - apply andb_true_iff in Hw as [Hc Hw]. apply N.ltb_lt in Hc.
    rewrite lower_ucs4_ascii by assumption. simpl.
    rewrite IH by assumption. rewrite <- app_assoc. reflexivity.
Qed.

Lemma do_lower_ascii_infix before pre w post :
  is_ascii w = true ->
  exists pre' post',
    do_lower before (pre ++ w ++ post) = pre' ++ List.map ascii_lower w ++ post'.
Proof.
  intros Hw. revert before. induction pre as [| c pre IH]; intros before.
  - exists [], (do_lower (rev w ++ before) post). simpl. apply do_lower_ascii_word, Hw.
  - destruct (IH (c :: before)) as (pre' & post' & E).
    exists (lower_ucs4 before c (pre ++ w ++ post) ++ pre'), post'.
    simpl. rewrite E, <- app_assoc. reflexivity.
Qed.

(** An ASCII word found in a message is found, lowered, in the lowered
    message, whatever surrounds it. *)
Lemma lower_finds_word s w :
  is_ascii w = true -> str_contains s w = true ->
  str_contains (lower s) (List.map ascii_lower w) = true.
Proof.
  intros Hw Hs. apply str_contains_spec in Hs as (pre & post & ->).
  apply str_contains_spec. apply do_lower_ascii_infix, Hw.
Qed.

End LowerWords.

(** X7. The first test of each rule ignores the case of ASCII letters and
    the text around the word: a message containing any spelling [w] of a
    human-request phrase is handed off, of an order word is an
    [order_status], of a greeting word gets the greeting reply. *)
Theorem first_rules_ignore_letter_case `{CaseTables} (message w : str) :
  is_ascii w = true ->
  str_contains message w = true ->
  (In (List.map ascii_lower w) human_keywords ->
   forall intent : Intent.t, should_transfer_to_human message intent = true) /\
  (In (List.map ascii_lower w) [u "pedido"; u "status"; u "encomenda"; u "tracking"] ->
   classify_intent message = Intent.mk (u "order_status") 0.95) /\
  (In (List.map ascii_lower w) [u "olá"; u "oi"; u "bom dia"; u "boa tarde"] ->
   forall user_id channel : str,
     process_message (ChatMessage.mk user_id message channel) = greeting_reply).
Proof.
  intros Hw Hin. pose proof (lower_finds_word message w Hw Hin) as Hlow.
  split; [| split].
  - intros Hkw intent. rewrite should_transfer_to_human_orb.
    replace (any _ human_keywords) with true; [reflexivity |].
    symmetry. apply any_spec. exists (List.map ascii_lower w). split; assumption.
  - intros Hkw. unfold classify_intent. cbv zeta.
    replace (any _ [u "pedido"; u "status"; u "encomenda"; u "tracking"]) with true;
      [reflexivity |].
    symmetry. apply any_spec. exists (List.map ascii_lower w). split; assumption.
  - intros Hkw user_id channel. unfold process_message. cbv zeta.
    cbn [ChatMessage.message].
    replace (any _ [u "olá"; u "oi"; u "bom dia"; u "boa tarde"]) with true;
      [vm_compute; reflexivity |].
    symmetry. apply any_spec. exists (List.map ascii_lower w). split; assumption.
Qed.

Lemma first_rules_ignore_letter_case_witness :
  is_ascii (u "GERENTE") = true /\
  str_contains (u "Chama o GERENTE agora") (u "GERENTE") = true /\
  In (List.map ascii_lower (u "GERENTE")) human_keywords /\
  should_transfer_to_human (u "Chama o GERENTE agora") (Intent.mk (u "greeting") 0.98) = true.
Proof.
  assert (Hw : is_ascii (u "GERENTE") = true) by (vm_compute; reflexivity).
  assert (Hin : str_contains (u "Chama o GERENTE agora") (u "GERENTE") = true)
    by (vm_compute; reflexivity).
  assert (Hkw : In (List.map ascii_lower (u "GERENTE")) human_keywords)
    by (do 4 right; left; vm_compute; reflexivity).
  split; [exact Hw |]. split; [exact Hin |]. split; [exact Hkw |].
  exact (proj1 (@first_rules_ignore_letter_case latin1_tables
                  (u "Chama o GERENTE agora") (u "GERENTE") Hw Hin)
           Hkw (Intent.mk (u "greeting") 0.98)).
Defined.

(** X8. On messages written in ASCII the rules read the text only through
    its lower-case form: two messages that differ in the case of their
    letters get the same topic, the same hand-off decision and the same
    reply, whoever the user and whatever the channel. *)
Theorem rules_read_lowered_text `{CaseTables} (message1 message2 : str) :
  is_ascii message1 = true ->
  is_ascii message2 = true ->
  List.map ascii_lower message1 = List.map ascii_lower message2 ->
  classify_intent message1 = classify_intent message2 /\
  (forall intent : Intent.t,
      should_transfer_to_human message1 intent = should_transfer_to_human message2 intent) /\
  (forall user1 channel1 user2 channel2 : str,
      process_message (ChatMessage.mk user1 message1 channel1)
      = process_message (ChatMessage.mk user2 message2 channel2)).
Proof.
  intros H1 H2 Hsame.
  assert (Hlow : lower message1 = lower message2)
    by (rewrite !lower_ascii by assumption; exact Hsame).
  split; [| split].
  - unfold classify_intent. rewrite Hlow. reflexivity.
  - intros intent. unfold should_transfer_to_human. rewrite Hlow. reflexivity.
  - intros user1 channel1 user2 channel2. unfold process_message.
    cbn [ChatMessage.message]. rewrite Hlow. reflexivity.
Qed.

Lemma rules_read_lowered_text_witness :
  classify_intent (u "Meu PEDIDO atrasou") = classify_intent (u "meu pedido ATRASOU").
Proof.
  apply (@rules_read_lowered_text latin1_tables); vm_compute; reflexivity.
Defined.

(** ** Logging and session ids *)

(** X9. A request adds one task behind those already queued, and the entry
    that task logs carries the user, channel and message of the request and
    the reply and intent of the response; its confidence is the
    classifier's. *)
Theorem log_entry_matches_response `{CaseTables} (now stamp later : datetime)
    (m : ChatMessage.t) (bg : BackgroundTasks) :
  exists r bg' entry,
    chat now stamp m bg = (Ok200 r, bg') /\
    run_background later bg' = run_background later bg ++ [entry] /\
    log_user_id entry = ChatMessage.user_id m /\
    log_channel entry = ChatMessage.channel m /\
    log_user_message entry = ChatMessage.message m /\
    log_bot_response entry = ChatResponse.response r /\
    log_intent entry = ChatResponse.intent r /\
    log_confidence entry = Intent.confidence (classify_intent (ChatMessage.message m)).
Proof.
  rewrite chat_returns. eexists. eexists. eexists.
  split; [reflexivity |].
  split; [unfold run_background; rewrite List.map_app; reflexivity |].
  cbn. repeat (split; [reflexivity |]). reflexivity.
Qed.

Lemma strftime_length (d : datetime) : length (strftime d) = 15%nat.
Proof. reflexivity. Qed.

Ltac div_lia := unfold digit in *; zify; Z.to_euclidean_division_equations; lia.

Lemma two_digits_inj (a b : N) :
  a < 100 -> b < 100 ->
  digit (a / 10) = digit (b / 10) -> digit a = digit b -> a = b.
Proof. intros Ha Hb Htens Hunits. div_lia. Qed.

Lemma digit_mod_100 (a : N) : digit (a mod 100) = digit a.
Proof. div_lia. Qed.

Lemma digit_tens_mod_100 (a : N) : digit (a mod 100 / 10) = digit (a / 10).
Proof. div_lia. Qed.

Lemma digit_thousands (a : N) : digit (a / 100 / 10) = digit (a / 1000).
Proof. rewrite N.Div0.div_div. reflexivity. Qed.

Lemma four_digits_inj (a b : N) :
  a < 10000 -> b < 10000 ->
  digit (a / 1000) = digit (b / 1000) -> digit (a / 100) = digit (b / 100) ->
  digit (a / 10) = digit (b / 10) -> digit a = digit b -> a = b.
Proof.
  intros Ha Hb H1 H2 H3 H4.
  assert (Ehi : a / 100 = b / 100).
  { apply two_digits_inj; try (apply N.Div0.div_lt_upper_bound; lia).
    - rewrite !digit_thousands. exact H1.
    - exact H2. }
  assert (Elo : a mod 100 = b mod 100).
  { apply two_digits_inj; try (apply N.mod_lt; lia).
    - rewrite !digit_tens_mod_100. exact H3.
    - rewrite !digit_mod_100. exact H4. }
  rewrite (N.div_mod a 100), (N.div_mod b 100) by lia. rewrite Ehi, Elo. reflexivity.
Qed.

Lemma strftime_inj (d1 d2 : datetime) :
  datetime_valid d1 = true -> datetime_valid d2 = true ->
  strftime d1 = strftime d2 -> d1 = d2.
Proof.
  destruct d1 as [y1 mo1 da1 h1 mi1 s1], d2 as [y2 mo2 da2 h2 mi2 s2].
  unfold datetime_valid, strftime. cbn [year month day hour minute second].
  rewrite !andb_true_iff, !N.leb_le.
  intros Hv1 Hv2 E. change (u "_") with [95] in E. cbn [app] in E.
  injection E as Ey1 Ey2 Ey3 Ey4 Emo1 Emo2 Eda1 Eda2 Eh1 Eh2 Emi1 Emi2 Es1 Es2.
  f_equal.
  - apply four_digits_inj; [lia | lia | assumption ..].
  - apply two_digits_inj; [lia | lia | assumption ..].
  - apply two_digits_inj; [lia | lia | assumption ..].
  - apply two_digits_inj; [lia | lia | assumption ..].
  - apply two_digits_inj; [lia | lia | assumption ..].
  - apply two_digits_inj; [lia | lia | assumption ..].
Qed.

Lemma chat_session_id `{CaseTables} (now stamp : datetime)
    (m : ChatMessage.t) (bg : BackgroundTasks) :
  exists r,
    fst (chat now stamp m bg) = Ok200 r /\
    ChatResponse.session_id r
    = u "session_" ++ ChatMessage.user_id m ++ u "_" ++ strftime now.
Proof. rewrite chat_returns. eexists. split; reflexivity. Defined.

(** X10. The session id of a response tells the user and the second of the
    request apart from every other: two responses with the same session id
    were built for the same [user_id] at the same clock reading. *)
Theorem session_id_determines_user_and_second `{CaseTables}
    (now1 now2 stamp1 stamp2 : datetime) (m1 m2 : ChatMessage.t)
    (bg1 bg2 : BackgroundTasks) (r1 r2 : ChatResponse.t) :
  datetime_valid now1 = true ->
  datetime_valid now2 = true ->
  fst (chat now1 stamp1 m1 bg1) = Ok200 r1 ->
  fst (chat now2 stamp2 m2 bg2) = Ok200 r2 ->
  ChatResponse.session_id r1 = ChatResponse.session_id r2 ->
  ChatMessage.user_id m1 = ChatMessage.user_id m2 /\ now1 = now2.
Proof.
  intros Hv1 Hv2 Hr1 Hr2 Hsid.
  rewrite chat_returns in Hr1, Hr2. cbn [fst] in Hr1, Hr2.
  assert (Hs1 : ChatResponse.session_id r1
                = u "session_" ++ ChatMessage.user_id m1 ++ u "_" ++ strftime now1)
    by (injection Hr1 as <-; reflexivity).
  assert (Hs2 : ChatResponse.session_id r2
                = u "session_" ++ ChatMessage.user_id m2 ++ u "_" ++ strftime now2)
    by (injection Hr2 as <-; reflexivity).
  rewrite Hs1, Hs2 in Hsid.
  apply app_inv_head in Hsid.
  apply app_inj_2 in Hsid as [Huser Htail].
  - split; [exact Huser |].
    apply app_inv_head in Htail. apply strftime_inj; assumption.
  - rewrite !length_app, !strftime_length. reflexivity.
Qed.

Lemma session_id_determines_user_and_second_witness :
  let now := {| year := 2024; month := 5; day := 17; hour := 9; minute := 30; second := 0 |} in
  let m1 := ChatMessage.mk (u "u1") (u "oi") (u "web") in
  let m2 := ChatMessage.mk (u "u1") (u "meu pedido") (u "whatsapp") in
  datetime_valid now = true /\
  ChatMessage.user_id m1 = ChatMessage.user_id m2 /\ now = now.
Proof.
  intros now m1 m2. split; [reflexivity |].
  destruct (@chat_session_id latin1_tables now now m1 []) as [r1 Hr1].
  destruct (@chat_session_id latin1_tables now now m2 []) as [r2 Hr2].
  apply (@session_id_determines_user_and_second latin1_tables
           now now now now m1 m2 [] [] r1 r2);
    [reflexivity | reflexivity | exact (proj1 Hr1) | exact (proj1 Hr2) |].
  rewrite (proj2 Hr1), (proj2 Hr2). reflexivity.
Defined.

(** ** The analytics endpoint *)

Lemma decimal_refuses_digitless : @refuses_digitless decimal_parser.
Proof.
  assert (Hdigits : forall s acc, s <> [] -> existsb is_digit s = false ->
                                  Decimal.digits acc s = None).
  { intros [| c rest] acc Hne Hno; [contradiction |].
    cbn in Hno |- *. apply orb_false_iff in Hno as [-> _]. reflexivity. }
  assert (Hunsigned : forall s, existsb is_digit s = false -> Decimal.unsigned s = None).
  { intros [| c rest] Hno; [reflexivity |]. apply Hdigits; [discriminate | exact Hno]. }
  intros s _ Hno. unfold int_of_str, decimal_parser, Decimal.int_of_str.
  destruct s as [| c rest]; [reflexivity |].
  assert (Hrest : existsb is_digit rest = false).
  { cbn in Hno. apply orb_false_iff in Hno as [_ Hrest]. exact Hrest. }
  destruct (N.eq_dec c 45) as [-> | H45].
  - rewrite (Hunsigned rest Hrest). reflexivity.
  - destruct (N.eq_dec c 43) as [-> | H43].
    + apply Hunsigned, Hrest.
    + transitivity (Decimal.unsigned (c :: rest)); [| apply Hunsigned, Hno].
      destruct c as [| p]; [reflexivity |].
      do 6 (destruct p as [p | p |]; try reflexivity); lia.
Qed.

Section Analytics.
Context `{IntParser}.

Lemma int_dict_refuses_text (d : gmap str pyval) (key s : str) :
  refuses_digitless ->
  d !! key = Some (PyStr s) ->
  is_ascii s = true -> existsb is_digit s = false ->
  AnalyticsResponse.int_dict d = None.
Proof.
  intros Hlaw Hkey Hascii Hno. unfold AnalyticsResponse.int_dict.
  destruct (decide _) as [Hall | _]; [| reflexivity].
  destruct (Hall key (PyStr s) Hkey) as [z Hz]. cbn in Hz.
  rewrite (Hlaw s Hascii Hno) in Hz. discriminate Hz.
Qed.

Lemma int_dict_accepts_integers (d : gmap str pyval) :
  map_Forall (fun _ v => exists z, v = PyInt z) d ->
  is_Some (AnalyticsResponse.int_dict d).
Proof.
  intros Hall. unfold AnalyticsResponse.int_dict.
  destruct (decide _) as [_ | Hnot]; [eexists; reflexivity |].
  exfalso. apply Hnot. intros key v Hkey.
  destruct (Hall key v Hkey) as [z ->]. exists z. reflexivity.
Qed.

End Analytics.

(** X11. Building the analytics answer always fails validation, whatever
    reading of text as integers is in force, as long as it refuses text
    without a digit: [top_intents] is declared as dicts with [int] values and
    the handler puts the topic names in them.  Dicts holding only integers
    are accepted. *)
Theorem analytics_summary_fails_validation `{IntParser} :
  refuses_digitless ->
  analytics_summary = None /\
  (forall (total : Z) (rate time handoff score : float) (tops : list (gmap str pyval)),
      Forall (map_Forall (fun _ v => exists z, v = PyInt z)) tops ->
      is_Some (AnalyticsResponse.new total rate time handoff score tops)).
Proof.
  intros Hlaw. split.
  - unfold analytics_summary, AnalyticsResponse.new.
    rewrite mapM_None_2; [reflexivity |].
    apply Exists_cons_hd.
    apply (int_dict_refuses_text _ (u "intent") (u "order_status") Hlaw);
      vm_compute; reflexivity.
  - intros total rate time handoff score tops Hall. unfold AnalyticsResponse.new.
    destruct (mapM AnalyticsResponse.int_dict tops) as [ok |] eqn:Hmap;
      [eexists; reflexivity |].
    exfalso. apply mapM_None_1 in Hmap. apply Exists_exists in Hmap as (d & Hin & Hd).
    rewrite Forall_forall in Hall.
    destruct (int_dict_accepts_integers d (Hall d Hin)) as [ok Hok].
    rewrite Hok in Hd. discriminate Hd.
Qed.

Lemma analytics_summary_fails_validation_witness :
  @refuses_digitless decimal_parser /\ @analytics_summary decimal_parser = None.
Proof.
  split; [exact decimal_refuses_digitless |].
  exact (proj1 (@analytics_summary_fails_validation decimal_parser
                  decimal_refuses_digitless)).
Defined.

(** ** Replies and suggestions *)

(** X12. The response generator answers with one of eight fixed texts, and
    each of the eight is the answer to some message. *)
Theorem process_message_image `{CaseTables} :
  (forall m : ChatMessage.t, In (process_message m) replies) /\
  (forall reply : str, In reply replies ->
     exists m : ChatMessage.t, ChatMessage.valid m = true /\ process_message m = reply).
Proof.
  split.
  - intros m. unfold process_message, replies. cbv zeta.
    repeat match goal with
           | |- context [if any ?p ?l then _ else _] => destruct (any p l)
           end; cbn [In];
      repeat first [left; vm_compute; reflexivity | right].
  - intros reply Hin. unfold replies in Hin. cbn [In] in Hin.
    destruct Hin as [<- | [<- | [<- | [<- | [<- | [<- | [<- | [<- | []]]]]]]]].
    + exists (ChatMessage.mk (u "u1") (u "oi") (u "web")). split; [reflexivity |].
      rewrite process_message_ascii by (vm_compute; reflexivity). vm_compute. reflexivity.
    + exists (ChatMessage.mk (u "u1") (u "pedido") (u "web")). split; [reflexivity |].
      rewrite process_message_ascii by (vm_compute; reflexivity). vm_compute. reflexivity.
    + exists (ChatMessage.mk (u "u1") (u "produto") (u "web")). split; [reflexivity |].
      rewrite process_message_ascii by (vm_compute; reflexivity). vm_compute. reflexivity.
    + exists (ChatMessage.mk (u "u1") (u "defeito") (u "web")). split; [reflexivity |].
      rewrite process_message_ascii by (vm_compute; reflexivity). vm_compute. reflexivity.
    + exists (ChatMessage.mk (u "u1") (u "fatura") (u "web")). split; [reflexivity |].
      rewrite process_message_ascii by (vm_compute; reflexivity). vm_compute. reflexivity.
    + exists (ChatMessage.mk (u "u1") (u "cancelar") (u "web")). split; [reflexivity |].
      rewrite process_message_ascii by (vm_compute; reflexivity). vm_compute. reflexivity.
    + exists (ChatMessage.mk (u "u1") (u "valeu") (u "web")). split; [reflexivity |].
      rewrite process_message_ascii by (vm_compute; reflexivity). vm_compute. reflexivity.
    + exists (ChatMessage.mk (u "u1") (u "xyz123") (u "web")). split; [reflexivity |].
      rewrite process_message_ascii by (vm_compute; reflexivity). vm_compute. reflexivity.
Qed.

Lemma process_message_image_witness :
  In cancel_reply replies /\
  exists m : ChatMessage.t, ChatMessage.valid m = true /\ process_message m = cancel_reply.
Proof.
  assert (Hin : In cancel_reply replies) by (do 5 right; left; reflexivity).
  split; [exact Hin |].
  exact (proj2 (@process_message_image latin1_tables) cancel_reply Hin).
Defined.

Lemma handoff_on_word `{CaseTables} (message w : str) (intent : Intent.t) :
  is_ascii w = true ->
  In (List.map ascii_lower w) human_keywords ->
  str_contains message w = true ->
  should_transfer_to_human message intent = true.
Proof.
  intros Hw Hkw Hin. rewrite should_transfer_to_human_orb.
  replace (any _ human_keywords) with true; [reflexivity |].
  symmetry. apply any_spec. exists (List.map ascii_lower w).
  split; [exact Hkw | apply lower_finds_word; assumption].
Qed.

Ltac pick_same :=
  cbn [In id];
  repeat match goal with
         | |- ?a = ?b \/ _ => first [constr_eq a b; left; exact eq_refl | right]
         end.

Ltac human_suggestion text :=
  exists text;
  split;
  [ pick_same
  | intros intent';
    apply (handoff_on_word text (u "Falar com") intent');
    [ vm_compute; reflexivity
    | left; vm_compute; reflexivity
    | vm_compute; reflexivity ] ].

(** X13. Every list of suggestions but the one for [billing] offers a way to
    a human: one of its three texts, sent back as a message, is handed off
    whatever it is classified as.  None of the three billing suggestions is
    handed off when sent back (read with the Latin-1 tables, which leave the
    pictographs unchanged). *)
Theorem suggestions_offer_a_human `{CaseTables} (intent : Intent.t) (message : str) :
  (Intent.type intent <> u "billing" ->
   exists suggestion : str,
     In suggestion (generate_suggestions intent message) /\
     forall intent' : Intent.t, should_transfer_to_human suggestion intent' = true) /\
  (Intent.type intent = u "billing" ->
   forall suggestion : str,
     In suggestion (generate_suggestions intent message) ->
     @should_transfer_to_human latin1_tables suggestion
       (@classify_intent latin1_tables suggestion) = false).
Proof.
  split.
  - intros Hother. unfold generate_suggestions. cbv zeta.
    destruct (suggestions !! Intent.type intent) as [actions |] eqn:Hlook; cbn [default].
    + apply suggestions_lookup_Some in Hlook.
      destruct Hlook as [E | [E | [E | [E | [E | []]]]]];
        pose proof (f_equal fst E) as Etopic; cbn [fst] in Etopic;
        apply (f_equal snd) in E; cbn [snd] in E; subst actions.
      * human_suggestion (u "📧 Falar com atendente").
      * human_suggestion (u "📞 Falar com vendedor").
      * human_suggestion (u "👨‍💻 Falar com técnico").
      * exfalso. apply Hother. symmetry. exact Etopic.
      * human_suggestion (u "📞 Falar com supervisor").
    + human_suggestion (u "📞 Falar com atendente").
  - intros Hbilling suggestion. unfold generate_suggestions. cbv zeta. rewrite Hbilling.
    replace (suggestions !! u "billing")
      with (Some [u "💳 Ver formas de pagamento";
                  u "📄 Segunda via da fatura";
                  u "💰 Negociar desconto"])
      by (vm_compute; reflexivity).
    cbn [default In].
    intros [<- | [<- | [<- | []]]]; vm_compute; reflexivity.
Qed.

Lemma suggestions_offer_a_human_witness :
  Intent.type (Intent.mk (u "complaint") 0.85) <> u "billing" /\
  exists suggestion : str,
    In suggestion (generate_suggestions (Intent.mk (u "complaint") 0.85) (u "ruim")) /\
    forall intent' : Intent.t, should_transfer_to_human suggestion intent' = true.
Proof.
  assert (Hother : Intent.type (Intent.mk (u "complaint") 0.85) <> u "billing")
    by (vm_compute; discriminate).
  split; [exact Hother |].
  exact (proj1 (@suggestions_offer_a_human latin1_tables
                  (Intent.mk (u "complaint") 0.85) (u "ruim")) Hother).
Defined.
